(** * Resource managers of the device plugin (internal/rm/rm.go)

    A shallow embedding of [NewResourceManagers], the [resourceManager]
    methods and [AddDefaultResourcesToConfig], together with the properties
    the specification states about them.

    Go code that talks to NVML, writes to the log and mutates the
    configuration through a pointer is embedded in a small state monad [Go]
    whose state holds the configuration object and the trace of the calls
    made to the outside world. A nil pointer dereference is a panic. *)

From stdpp Require Import base option list gmap strings.
From Stdlib Require Import ZArith Lia.

Open Scope Z_scope.
Open Scope string_scope.

(** ** Data model *)

(** [nvml.Return] is a 32-bit status code; [nvml.SUCCESS] is zero. *)
Definition Return := Z.
Definition SUCCESS : Return := 0.

(** [spec.ResourceName] is a string type. *)
Definition ResourceName := string.

(** Go's [error] interface value: [None] is [nil]. [Errorf] is an error
    made by [fmt.Errorf]; [InvalidRequest] is the caller-contract error of
    the allocation engine. *)
Inductive err :=
| Errorf (msg : string)
| InvalidRequest.

Definition error := option err.

(** The three values of the [mig-strategy] flag, constants of the
    [api/config/v1] package. *)
Definition MigStrategyNone : string := "none".
Definition MigStrategySingle : string := "single".
Definition MigStrategyMixed : string := "mixed".

(** The two pointer-typed flags [rm.go] reads: [None] is a nil pointer. *)
Record CommandLineFlags := {
  MigStrategy : option string;
  FailOnInitError : option bool
}.

(** A matching rule: pattern -> resource name. *)
Record Resource := {
  Pattern : string;
  Name : ResourceName
}.

(** The ordered rule lists of [config.Resources]. *)
Record ResourcesConfig := {
  GPUs : list Resource;
  MIGs : list Resource
}.

Record Config := {
  Flags : CommandLineFlags;
  Resources : ResourcesConfig
}.

(** Modelled from the spec: the [Device] type is declared in another file
    of the package. A device has a stable [ID], the hardware enumeration
    [Index] (for a partition: parent index and partition index) and a
    [Health]. *)
Inductive DeviceIndex :=
| GPUIndex (i : nat)
| MIGIndex (parent partition : nat).

Inductive HealthState := Healthy | Unhealthy.

Record Device := {
  ID : string;
  Index : DeviceIndex;
  Health : HealthState
}.

(** Modelled from the spec: [Devices] is declared in another file of the
    package; the spec has it as the ordered list of a pool's devices. *)
Definition Devices := list Device.

(** resourceManager implements the ResourceManager interface *)
Record resourceManager := {
  config : Config;
  resource : ResourceName;
  devices : Devices
}.

(** ** The outside world *)

(** What the collaborators answer during one call. [buildDeviceMap] and
    [walkMigProfiles] are functions of the package declared in other
    files and NVML is a library: their answers are inputs of the model.
    [walk_profiles] are the MIG profiles [walkMigProfiles] visits, in
    order, and [walk_error] the error it ends with when the enumeration
    itself fails after them. *)
Record Hardware := {
  nvml_Init : Return;
  nvml_Shutdown : Return;
  nvml_ErrorString : Return -> string;
  nvinfo_HasNVML : bool * string;
  buildDeviceMap_result : Config -> string + gmap ResourceName Devices;
  walk_profiles : list string;
  walk_error : error
}.

Inductive Stream := Stderr | Stdout.

(** The observable calls, in the order they happen. *)
Inductive Event :=
| EvInit (ret : Return)
| EvShutdown (ret : Return)
| EvHasNVML
| EvBuildDeviceMap
| EvWalkMigProfiles
| EvSetOutput (s : Stream)
| EvPrintf (msg : string).

(** The state of a run: the configuration object behind the [config]
    pointer, which is taken to be non-nil, and the trace so far. *)
Record State := {
  conf : Config;
  trace : list Event
}.

(** ** The [Go] monad: state, trace and panics *)

Inductive Outcome (A : Type) :=
| Returned (a : A)
| Panicked.
Arguments Returned {A} a.
Arguments Panicked {A}.

Definition Go (A : Type) : Type := State -> Outcome A * State.

#[global] Instance Go_ret : MRet Go := fun A a s => (Returned a, s).

#[global] Instance Go_bind : MBind Go := fun A B f m s =>
  match m s with
  | (Returned a, s') => f a s'
  | (Panicked, s') => (Panicked, s')
  end.

Definition emit (e : Event) : Go unit := fun s =>
  (Returned tt, {| conf := conf s; trace := (trace s ++ [e])%list |}).

Definition get_config : Go Config := fun s => (Returned (conf s), s).

Definition set_resources (r : ResourcesConfig) : Go unit := fun s =>
  (Returned tt,
   {| conf := {| Flags := Flags (conf s); Resources := r |};
      trace := trace s |}).

Definition panic {A} : Go A := fun s => (Panicked, s).

(** [*p] for a pointer [p]. *)
Definition deref {A} (p : option A) : Go A :=
  match p with
  | Some a => mret a
  | None => panic
  end.

(** [defer d] followed by [body]: [d] runs when [body] is left, by a
    return or by a panic, and the outcome of [body] is the outcome of the
    function. *)
Definition defer {A} (d : Go unit) (body : Go A) : Go A := fun s =>
  let '(r, s1) := body s in
  let '(_, s2) := d s1 in
  (r, s2).

Definition log_Printf (msg : string) : Go unit := emit (EvPrintf msg).
Definition log_SetOutput (w : Stream) : Go unit := emit (EvSetOutput w).

Definition nvml_Init_call (hw : Hardware) : Go Return :=
  emit (EvInit (nvml_Init hw));; mret (nvml_Init hw).

Definition nvml_Shutdown_call (hw : Hardware) : Go Return :=
  emit (EvShutdown (nvml_Shutdown hw));; mret (nvml_Shutdown hw).

Definition buildDeviceMap (hw : Hardware) (c : Config)
  : Go (string + gmap ResourceName Devices) :=
  emit EvBuildDeviceMap;; mret (buildDeviceMap_result hw c).

(** The deferred function of both entry points. *)
Definition shutdown_deferred (hw : Hardware) : Go unit :=
  ret ← nvml_Shutdown_call hw;
  if bool_decide (ret ≠ SUCCESS)
  then log_Printf ("Error shutting down NVML: " ++ nvml_ErrorString hw ret)
  else mret tt.

(** ** [resourceManager] methods *)

Module RM.

(** Resource gets the resource name associated with the ResourceManager *)
Definition Resource (r : resourceManager) : ResourceName := resource r.

(** Devices gets the devices managed by the ResourceManager *)
Definition Devices (r : resourceManager) : Devices := devices r.

Section AllocationEngine.

(** Modelled from the spec: the topology signal of the configured
    preference policy, which the spec leaves open: the affinity of a
    candidate to the required devices; a higher one is preferred. *)
Variable affinity : list string -> string -> nat.

(** Modelled from the spec: ascending hardware index, a whole device by
    its index, a partition by its parent's index and then its own. *)
Definition index_key (i : DeviceIndex) : nat * nat :=
  match i with
  | GPUIndex i => (i, 0%nat)
  | MIGIndex parent partition => (parent, S partition)
  end.

Definition key_le (a b : nat * nat) : bool :=
  (a.1 <? b.1)%nat || ((a.1 =? b.1)%nat && (a.2 <=? b.2)%nat).

(** Modelled from the spec: the pool's device of a given ID, and the
    index it is ranked by. *)
Definition lookup_device (pool : list Device) (id : string) : option Device :=
  List.find (fun d => bool_decide (ID d = id)) pool.

Definition device_key (pool : list Device) (id : string) : nat * nat :=
  from_option (fun d => index_key (Index d)) (0%nat, 0%nat)
              (lookup_device pool id).

(** Modelled from the spec: the contract of an allocation request:
    [required] is a subset of [available], [size] lies in
    [len(required), len(available)], and no available device is
    unknown to the pool. *)
Definition valid_request (pool : list Device)
    (available required : list string) (size : Z) : bool :=
  bool_decide (required ⊆ available)
  && bool_decide (Z.of_nat (length required) ≤ size)%Z
  && bool_decide (size ≤ Z.of_nat (length available))%Z
  && bool_decide (available ⊆ (ID <$> pool)).

(** Modelled from the spec: topology affinity first, ascending index
    as tie-break. *)
Definition ranks_before (pool : list Device) (required : list string)
    (a b : string) : bool :=
  (affinity required b <? affinity required a)%nat
  || ((affinity required a =? affinity required b)%nat
      && key_le (device_key pool a) (device_key pool b)).

(** Modelled from the spec: the ranking is a stable insertion sort, so
    equally ranked devices keep the order they have in [available]. *)
Fixpoint insert_ranked (before : string -> string -> bool)
    (x : string) (l : list string) : list string :=
  match l with
  | [] => [x]
  | y :: l' =>
      if before x y then x :: y :: l'
      else y :: insert_ranked before x l'
  end.

Definition rank (pool : list Device) (required l : list string)
  : list string :=
  foldr (insert_ranked (ranks_before pool required)) [] l.

(** Modelled from the spec: [available \ required], the devices that
    remain once the required ones are set aside. Every entry of
    [required] takes one entry of that ID out of [available], so that the
    entries are counted the way [len] counts them; on lists that name no
    ID twice, the spec's sets, this is the set difference. *)
Fixpoint remove_one (x : string) (l : list string) : list string :=
  match l with
  | [] => []
  | y :: l' => if bool_decide (y = x) then l' else y :: remove_one x l'
  end.

Definition remaining (available required : list string) : list string :=
  foldl (fun l x => remove_one x l) available required.

(** Modelled from the spec: [getPreferredAllocation] is declared in
    another file of the package. Validate the contract; start the
    result with all of [required]; rank the remaining
    [available \ required] devices and append the top
    [size - len(required)] of them. *)
Definition getPreferredAllocation (r : resourceManager)
    (available required : list string) (size : Z)
  : list string * error :=
  if valid_request (Devices r) available required size then
    ((required
        ++ take (Z.to_nat (size - Z.of_nat (length required)))
                (rank (Devices r) required
                      (remaining available required)))%list,
     None)
  else ([], Some InvalidRequest).

(** GetPreferredAllocation runs an allocation algorithm over the inputs.
    The algorithm chosen is based both on the incoming set of available
    devices and various config settings. *)
Definition GetPreferredAllocation (r : resourceManager)
    (available required : list string) (size : Z)
  : list string * error :=
  getPreferredAllocation r available required size.

End AllocationEngine.

End RM.

(** ** [NewResourceManagers] *)

(** One iteration of the [range deviceMap] loop. *)
Definition range_step (c : Config) (rms : list resourceManager)
    (kv : ResourceName * Devices) : list resourceManager :=
  let r := {| config := c; resource := kv.1; devices := kv.2 |} in
  if bool_decide (length (RM.Devices r) ≠ 0%nat)
  then (rms ++ [r])%list
  else rms.

(** NewResourceManagers returns a []ResourceManager, one for each resource
    in 'config'. The order in which Go ranges over a map is unspecified;
    the model takes the order of [map_to_list]. *)
Definition NewResourceManagers (hw : Hardware)
  : Go (list resourceManager * error) :=
  c ← get_config;
  ret ← nvml_Init_call hw;
  if bool_decide (ret ≠ SUCCESS) then
    log_SetOutput Stderr;;
    log_Printf ("Failed to initialize NVML: " ++ nvml_ErrorString hw ret ++ ".");;
    log_Printf "If this is a GPU node, did you set the docker default runtime to `nvidia`?";;
    log_Printf "You can check the prerequisites at: https://github.com/NVIDIA/k8s-device-plugin#prerequisites";;
    log_Printf "You can learn how to set the runtime at: https://github.com/NVIDIA/k8s-device-plugin#quick-start";;
    log_Printf "If this is not a GPU node, you should set up a toleration or nodeSelector to only deploy this plugin on GPU nodes";;
    log_SetOutput Stdout;;
    fail_fast ← deref (FailOnInitError (Flags c));
    if fail_fast : bool
    then mret ([], Some (Errorf ("failed to initialize NVML: " ++ nvml_ErrorString hw ret)))
    else mret ([], None)
  else
    defer (shutdown_deferred hw)
      (built ← buildDeviceMap hw c;
       match built with
       | inl e => mret ([], Some (Errorf ("error building device map: " ++ e)))
       | inr deviceMap =>
           mret (foldl (range_step c) [] (map_to_list deviceMap), None)
       end).

(** ** [AddDefaultResourcesToConfig] *)

(** Modelled from the spec: [AddGPUResource] and [AddMIGResource] are
    methods of [config.Resources] declared in the [api/config/v1] package.
    The rules are an ordered list of (pattern, resource name); adding one
    appends it. *)
Definition AddGPUResource (pattern name : string) : Go error :=
  c ← get_config;
  set_resources {| GPUs := (GPUs (Resources c)
                              ++ [{| Pattern := pattern; Name := name |}])%list;
                   MIGs := MIGs (Resources c) |};;
  mret None.

Definition AddMIGResource (pattern name : string) : Go error :=
  c ← get_config;
  set_resources {| GPUs := GPUs (Resources c);
                   MIGs := (MIGs (Resources c)
                              ++ [{| Pattern := pattern; Name := name |}])%list |};;
  mret None.

Definition nvinfo_HasNVML_call (hw : Hardware) : Go (bool * string) :=
  emit EvHasNVML;; mret (nvinfo_HasNVML hw).

(** The callback is applied to each visited profile in turn; the first
    error it returns ends the walk. *)
Fixpoint walk (f : string -> Go error) (profiles : list string)
    (final : error) : Go error :=
  match profiles with
  | [] => mret final
  | p :: rest =>
      e ← f p;
      match e with
      | Some _ => mret e
      | None => walk f rest final
      end
  end.

Definition walkMigProfiles (hw : Hardware) (f : string -> Go error)
  : Go error :=
  emit EvWalkMigProfiles;; walk f (walk_profiles hw) (walk_error hw).

(** [%q] of a string without special characters. *)
Definition quoted (s : string) : string :=
  String (Ascii.ascii_of_nat 34) (s ++ String (Ascii.ascii_of_nat 34) EmptyString).

(** AddDefaultResourcesToConfig adds default resource matching rules to
    config.Resources *)
Definition AddDefaultResourcesToConfig (hw : Hardware) : Go error :=
  AddGPUResource "*" "gpu";;
  c ← get_config;
  strategy ← deref (MigStrategy (Flags c));
  if bool_decide (strategy = MigStrategySingle) then
    AddMIGResource "*" "gpu"
  else if bool_decide (strategy = MigStrategyMixed) then
    '(hasNVML, reason) ← nvinfo_HasNVML_call hw;
    if negb hasNVML then
      log_Printf ("WARNING: mig-strategy=" ++ quoted MigStrategyMixed
                    ++ " is only supported with NVML");;
      log_Printf ("NVML not detected: " ++ reason);;
      mret None
    else
      ret ← nvml_Init_call hw;
      if bool_decide (ret ≠ SUCCESS) then
        fail_fast ← deref (FailOnInitError (Flags c));
        if fail_fast : bool
        then mret (Some (Errorf ("failed to initialize NVML: "
                                   ++ nvml_ErrorString hw ret)))
        else mret None
      else
        defer (shutdown_deferred hw)
          (walkMigProfiles hw (fun migProfile =>
             AddMIGResource migProfile ("mig-" ++ migProfile)))
  else mret None.

(** ** Auxiliary definitions of the statements *)

(** The manager the loop builds for one entry of the device map. *)
Definition manager_of (c : Config) (kv : ResourceName * Devices)
  : resourceManager :=
  {| config := c; resource := kv.1; devices := kv.2 |}.

(** What the deferred function adds to the trace. *)
Definition shutdown_events (hw : Hardware) : list Event :=
  EvShutdown (nvml_Shutdown hw)
  :: (if bool_decide (nvml_Shutdown hw ≠ SUCCESS)
      then [EvPrintf ("Error shutting down NVML: "
                        ++ nvml_ErrorString hw (nvml_Shutdown hw))]
      else []).

(** The whole-GPU rule and the rule of one MIG profile. *)
Definition gpu_rule : Resource := {| Pattern := "*"; Name := "gpu" |}.

Definition mig_rule (migProfile : string) : Resource :=
  {| Pattern := migProfile; Name := "mig-" ++ migProfile |}.

(** The lines [NewResourceManagers] logs when NVML cannot be initialized. *)
Definition init_failure_hints (hw : Hardware) : list string :=
  [ "Failed to initialize NVML: " ++ nvml_ErrorString hw (nvml_Init hw) ++ ".";
    "If this is a GPU node, did you set the docker default runtime to `nvidia`?";
    "You can check the prerequisites at: https://github.com/NVIDIA/k8s-device-plugin#prerequisites";
    "You can learn how to set the runtime at: https://github.com/NVIDIA/k8s-device-plugin#quick-start";
    "If this is not a GPU node, you should set up a toleration or nodeSelector to only deploy this plugin on GPU nodes" ].

(** The number of events of a kind in a trace. *)
Definition calls (kind : Event -> bool) (evs : list Event) : nat :=
  length (List.filter kind evs).

Definition is_init (e : Event) : bool :=
  match e with EvInit _ => true | _ => false end.

Definition is_init_ok (e : Event) : bool :=
  match e with EvInit ret => bool_decide (ret = SUCCESS) | _ => false end.

Definition is_shutdown (e : Event) : bool :=
  match e with EvShutdown _ => true | _ => false end.

(** The same node, with another answer of [nvml.Shutdown]. *)
Definition with_shutdown (hw : Hardware) (ret : Return) : Hardware :=
  {| nvml_Init := nvml_Init hw;
     nvml_Shutdown := ret;
     nvml_ErrorString := nvml_ErrorString hw;
     nvinfo_HasNVML := nvinfo_HasNVML hw;
     buildDeviceMap_result := buildDeviceMap_result hw;
     walk_profiles := walk_profiles hw;
     walk_error := walk_error hw |}.

(** The configuration after the rules [gpus] and [migs] were appended. *)
Definition with_rules (c : Config) (gpus migs : list Resource) : Config :=
  {| Flags := Flags c;
     Resources := {| GPUs := (GPUs (Resources c) ++ gpus)%list;
                     MIGs := (MIGs (Resources c) ++ migs)%list |} |}.

(** ** Concrete inputs *)

(** The policy without a topology signal: ascending index only. *)
Definition no_affinity : list string -> string -> nat := fun _ _ => 0%nat.

Definition gpu (id : string) (i : nat) : Device :=
  {| ID := id; Index := GPUIndex i; Health := Healthy |}.

Definition flags_of (strategy : string) (fail_fast : bool) : Config :=
  {| Flags := {| MigStrategy := Some strategy;
                 FailOnInitError := Some fail_fast |};
     Resources := {| GPUs := []; MIGs := [] |} |}.

Definition start (c : Config) : State := {| conf := c; trace := [] |}.

(** The pool of the spec's example: A, B, C, D by ascending index. *)
Definition pool_abcd : resourceManager :=
  {| config := flags_of MigStrategyNone false;
     resource := "gpu";
     devices := [gpu "A" 0; gpu "B" 1; gpu "C" 2; gpu "D" 3] |}.

Definition error_strings (ret : Return) : string :=
  if bool_decide (ret = 9) then "Driver Not Loaded" else "Unknown Error".

(** A node with two GPUs and a resource name that matched no device. *)
Definition two_pools : gmap ResourceName Devices :=
  <["gpu" := [gpu "A" 0; gpu "B" 1]]> (<["mig-1g.5gb" := []]> ∅).

Definition gpu_node : Hardware :=
  {| nvml_Init := SUCCESS; nvml_Shutdown := SUCCESS;
     nvml_ErrorString := error_strings;
     nvinfo_HasNVML := (true, "found");
     buildDeviceMap_result := fun _ => inr two_pools;
     walk_profiles := ["1g.5gb"; "2g.10gb"]; walk_error := None |}.

(** A node whose device map cannot be built. *)
Definition broken_node : Hardware :=
  {| nvml_Init := SUCCESS; nvml_Shutdown := SUCCESS;
     nvml_ErrorString := error_strings;
     nvinfo_HasNVML := (true, "found");
     buildDeviceMap_result := fun _ => inl "no devices";
     walk_profiles := []; walk_error := None |}.

(** A node without driver and without the NVML library. *)
Definition cpu_node : Hardware :=
  {| nvml_Init := 9; nvml_Shutdown := 9;
     nvml_ErrorString := error_strings;
     nvinfo_HasNVML := (false, "library not found");
     buildDeviceMap_result := fun _ => inl "unreachable";
     walk_profiles := []; walk_error := None |}.

(** A configuration whose flag pointers are nil. *)
Definition nil_flags : Config :=
  {| Flags := {| MigStrategy := None; FailOnInitError := None |};
     Resources := {| GPUs := []; MIGs := [] |} |}.

(** A configuration with a strategy and a nil fail-fast pointer. *)
Definition strategy_only (strategy : string) : Config :=
  {| Flags := {| MigStrategy := Some strategy; FailOnInitError := None |};
     Resources := {| GPUs := []; MIGs := [] |} |}.

(** A node that has the NVML library but no working driver. *)
Definition driverless_node : Hardware :=
  {| nvml_Init := 9; nvml_Shutdown := 9;
     nvml_ErrorString := error_strings;
     nvinfo_HasNVML := (true, "found");
     buildDeviceMap_result := fun _ => inl "unreachable";
     walk_profiles := []; walk_error := None |}.

(** * Properties *)

(** ** Running [Go] programs *)

Ltac go_unfold :=
  unfold NewResourceManagers, AddDefaultResourcesToConfig, shutdown_deferred,
    defer, buildDeviceMap, nvml_Init_call, nvml_Shutdown_call,
    nvinfo_HasNVML_call, AddGPUResource, AddMIGResource, walkMigProfiles,
    log_Printf, log_SetOutput, deref, panic, emit, get_config, set_resources,
    mbind, mret, Go_bind, Go_ret.

Ltac go_run := go_unfold; simpl.

(** ** The [range deviceMap] loop *)

Lemma range_step_app c acc kvs :
  foldl (range_step c) acc kvs
  = (acc ++ (manager_of c <$> filter (fun kv => kv.2 ≠ []) kvs))%list.
Proof.
  revert acc. induction kvs as [|kv kvs IH]; intros acc; simpl.
  - by rewrite app_nil_r.
  - rewrite IH. unfold range_step at 1. simpl.
    rewrite filter_cons. destruct kv as [name [|d ds]]; simpl.
    + done.
    + by rewrite <- app_assoc.
Qed.

Lemma range_loop_elem_of c (deviceMap : gmap ResourceName Devices) r :
  r ∈ foldl (range_step c) [] (map_to_list deviceMap) ↔
  config r = c ∧ devices r ≠ [] ∧ deviceMap !! resource r = Some (devices r).
Proof.
  rewrite range_step_app. simpl. rewrite list_elem_of_fmap. split.
  - intros [[name ds] [-> Hin]]. apply list_elem_of_filter in Hin as [Hne Hin].
    apply elem_of_map_to_list in Hin. by simpl in *.
  - intros (Hc & Hne & Hlook). exists (resource r, devices r). split.
    + destruct r; simpl in *; by subst.
    + apply list_elem_of_filter. split; [done|].
      by apply elem_of_map_to_list.
Qed.

(** ** [NewResourceManagers] *)

(** The two shapes a run can take. *)
Lemma NewResourceManagers_init_failed hw s :
  nvml_Init hw ≠ SUCCESS →
  (NewResourceManagers hw s).1 =
  match FailOnInitError (Flags (conf s)) with
  | Some true =>
      Returned ([], Some (Errorf ("failed to initialize NVML: "
                                    ++ nvml_ErrorString hw (nvml_Init hw))))
  | Some false => Returned ([], None)
  | None => Panicked
  end.
Proof.
  intros Hinit. go_run. rewrite bool_decide_true by done. simpl.
  by destruct (FailOnInitError (Flags (conf s))) as [[]|].
Qed.

Lemma NewResourceManagers_init_ok hw s :
  nvml_Init hw = SUCCESS →
  NewResourceManagers hw s =
  (Returned
     match buildDeviceMap_result hw (conf s) with
     | inl e => ([], Some (Errorf ("error building device map: " ++ e)))
     | inr deviceMap =>
         (foldl (range_step (conf s)) [] (map_to_list deviceMap), None)
     end,
   {| conf := conf s;
      trace := (trace s ++ [EvInit SUCCESS; EvBuildDeviceMap]
                  ++ shutdown_events hw)%list |}).
Proof.
  intros Hinit. go_run. rewrite Hinit. simpl. unfold shutdown_events.
  destruct (buildDeviceMap_result hw (conf s)) as [e|deviceMap]; simpl;
    destruct (bool_decide (nvml_Shutdown hw ≠ SUCCESS)); simpl;
    by rewrite <- !app_assoc.
Qed.

(** C5: when the initialization of NVML fails, [NewResourceManagers]
    returns an error if and only if [FailOnInitError] is true; when the
    flag is false it returns the nil slice and no error. *)
Theorem init_failure_follows_fail_fast_flag hw s (fail_fast : bool) :
  nvml_Init hw ≠ SUCCESS →
  FailOnInitError (Flags (conf s)) = Some fail_fast →
  ∃ rms e s',
    NewResourceManagers hw s = (Returned (rms, e), s')
    ∧ (is_Some e ↔ fail_fast = true)
    ∧ (fail_fast = false → rms = [] ∧ e = None).
Proof.
  intros Hinit Hflag.
  pose proof (NewResourceManagers_init_failed hw s Hinit) as Hrun.
  rewrite Hflag in Hrun.
  destruct (NewResourceManagers hw s) as [out s'] eqn:E. simpl in Hrun.
  subst out. destruct fail_fast.
  - eexists _, _, s'. split; [reflexivity|]. split; [|done].
    split; [done|]. intros _. by eexists.
  - eexists _, _, s'. split; [reflexivity|]. split; [|done].
    split; [|done]. by intros [? ?].
Qed.

(** C6: every manager in the list a successful [NewResourceManagers]
    returns has a non-empty device list, and a resource name that the
    device map binds to no device has no manager. *)
Theorem managers_have_devices hw s rms s' :
  NewResourceManagers hw s = (Returned (rms, None), s') →
  Forall (fun r => RM.Devices r ≠ []) rms
  ∧ ∀ deviceMap name,
      buildDeviceMap_result hw (conf s) = inr deviceMap →
      deviceMap !! name = Some [] →
      name ∉ (RM.Resource <$> rms).
Proof.
  intros Hrun.
  destruct (decide (nvml_Init hw = SUCCESS)) as [Hok|Hfail].
  - rewrite (NewResourceManagers_init_ok hw s Hok) in Hrun.
    destruct (buildDeviceMap_result hw (conf s)) as [e|dm] eqn:Hdm;
      [by inversion Hrun|].
    assert (rms = foldl (range_step (conf s)) [] (map_to_list dm)) as ->
      by (by inversion Hrun).
    split.
    + apply Forall_forall. intros r Hr.
      apply range_loop_elem_of in Hr as (_ & Hne & _). done.
    + intros deviceMap name [= <-] Hname Hin.
      apply list_elem_of_fmap in Hin as (r & -> & Hr).
      apply range_loop_elem_of in Hr as (_ & Hne & Hlook).
      assert (Some (devices r) = Some []) as [= Hnil]
        by exact (eq_trans (eq_sym Hlook) Hname).
      by apply Hne.
  - pose proof (NewResourceManagers_init_failed hw s Hfail) as Hout.
    rewrite Hrun in Hout. simpl in Hout.
    assert (rms = []) as ->
      by (destruct (FailOnInitError (Flags (conf s))) as [[]|]; congruence).
    split; [constructor|]. intros ? ? _ _ Hin. by apply elem_of_nil in Hin.
Qed.

(** C7: on every run of [NewResourceManagers] in which NVML was
    initialized, the function returns, and by then [nvml.Shutdown] has been
    called exactly once, after the device map was built; the run in which
    building the device map fails is no exception. *)
Theorem shutdown_on_every_path hw s :
  nvml_Init hw = SUCCESS →
  ∃ out s',
    NewResourceManagers hw s = (Returned out, s')
    ∧ trace s' = (trace s ++ [EvInit SUCCESS; EvBuildDeviceMap]
                    ++ shutdown_events hw)%list
    ∧ ∀ e, buildDeviceMap_result hw (conf s) = inl e →
           out = ([], Some (Errorf ("error building device map: " ++ e))).
Proof.
  intros Hinit. rewrite (NewResourceManagers_init_ok hw s Hinit).
  eexists _, _. split; [reflexivity|]. split; [done|].
  by intros e ->.
Qed.

(** ** [AddDefaultResourcesToConfig] *)

Lemma walk_AddMIGResource profiles final s :
  walk (fun p => AddMIGResource p ("mig-" ++ p)) profiles final s =
  (Returned final,
   {| conf := {| Flags := Flags (conf s);
                 Resources :=
                   {| GPUs := GPUs (Resources (conf s));
                      MIGs := (MIGs (Resources (conf s))
                                 ++ (mig_rule <$> profiles))%list |} |};
      trace := trace s |}).
Proof.
  revert s. induction profiles as [|p rest IH]; intros s.
  - destruct s as [[fl [gpus migs]] tr]. simpl. by rewrite app_nil_r.
  - cbn [walk]. unfold mbind at 1, Go_bind. go_run. rewrite IH. simpl.
    by rewrite <- app_assoc.
Qed.

(** C10: [AddDefaultResourcesToConfig] adds the whole-GPU rule, pattern
    ["*"] to resource ["gpu"], whatever the MIG strategy is, and under the
    [single] strategy it also adds the rule that maps every MIG partition,
    pattern ["*"], to the same resource ["gpu"]. *)
Theorem default_rules_added hw s :
  GPUs (Resources (conf (AddDefaultResourcesToConfig hw s).2))
  = (GPUs (Resources (conf s)) ++ [gpu_rule])%list
  ∧ (MigStrategy (Flags (conf s)) = Some MigStrategySingle →
     (AddDefaultResourcesToConfig hw s).1 = Returned None
     ∧ MIGs (Resources (conf (AddDefaultResourcesToConfig hw s).2))
       = (MIGs (Resources (conf s)) ++ [gpu_rule])%list).
Proof.
  split.
  - go_run. destruct (MigStrategy (Flags (conf s))) as [strategy|]; simpl;
      [|done].
    destruct (bool_decide (strategy = MigStrategySingle)); simpl; [done|].
    destruct (bool_decide (strategy = MigStrategyMixed)); simpl; [|done].
    destruct (nvinfo_HasNVML hw) as [[] reason]; simpl; [|done].
    destruct (bool_decide (nvml_Init hw ≠ SUCCESS)); simpl.
    + by destruct (FailOnInitError (Flags (conf s))) as [[]|].
    + rewrite walk_AddMIGResource. simpl.
      by destruct (bool_decide (nvml_Shutdown hw ≠ SUCCESS)).
  - intros Hsingle. go_run. rewrite Hsingle. simpl. done.
Qed.

(** C9: under the [mixed] strategy on a node where NVML is not detected,
    [AddDefaultResourcesToConfig] returns nil after adding the whole-GPU
    rule only, whatever [FailOnInitError] holds, and without calling
    [nvml.Init]; where NVML is detected and its initialization fails, the
    flag decides between the error and nil. *)
Theorem mixed_strategy_and_nvml hw s :
  MigStrategy (Flags (conf s)) = Some MigStrategyMixed →
  match nvinfo_HasNVML hw with
  | (false, reason) =>
      AddDefaultResourcesToConfig hw s =
      (Returned None,
       {| conf := {| Flags := Flags (conf s);
                     Resources :=
                       {| GPUs := (GPUs (Resources (conf s)) ++ [gpu_rule])%list;
                          MIGs := MIGs (Resources (conf s)) |} |};
          trace := (trace s
                      ++ [EvHasNVML;
                          EvPrintf ("WARNING: mig-strategy="
                                      ++ quoted MigStrategyMixed
                                      ++ " is only supported with NVML");
                          EvPrintf ("NVML not detected: " ++ reason)])%list |})
  | (true, _) =>
      nvml_Init hw ≠ SUCCESS →
      (AddDefaultResourcesToConfig hw s).1 =
      match FailOnInitError (Flags (conf s)) with
      | Some true =>
          Returned (Some (Errorf ("failed to initialize NVML: "
                                    ++ nvml_ErrorString hw (nvml_Init hw))))
      | Some false => Returned None
      | None => Panicked
      end
  end.
Proof.
  intros Hmixed. destruct (nvinfo_HasNVML hw) as [[] reason] eqn:Hnvml.
  - intros Hinit. go_run. rewrite Hmixed, Hnvml. simpl.
    rewrite bool_decide_true by done. simpl.
    by destruct (FailOnInitError (Flags (conf s))) as [[]|].
  - go_run. rewrite Hmixed, Hnvml. simpl. by rewrite <- !app_assoc.
Qed.

(** ** The allocation engine *)

Section AllocationProperties.

Variable affinity : list string -> string -> nat.

Lemma valid_request_spec pool available required size :
  RM.valid_request pool available required size = true ↔
  required ⊆ available
  ∧ (Z.of_nat (length required) ≤ size ≤ Z.of_nat (length available))%Z
  ∧ available ⊆ (ID <$> pool).
Proof.
  unfold RM.valid_request. rewrite !andb_true_iff, !bool_decide_eq_true.
  tauto.
Qed.

Lemma insert_ranked_Permutation before x l :
  RM.insert_ranked before x l ≡ₚ x :: l.
Proof.
  induction l as [|y l IH]; simpl; [done|].
  destruct (before x y); [done|]. rewrite IH. apply Permutation_swap.
Qed.

Lemma rank_Permutation pool required l :
  RM.rank affinity pool required l ≡ₚ l.
Proof.
  unfold RM.rank. induction l as [|x l IH]; simpl; [done|].
  by rewrite insert_ranked_Permutation, IH.
Qed.

Lemma length_rank pool required l :
  length (RM.rank affinity pool required l) = length l.
Proof. apply Permutation_length, rank_Permutation. Qed.

(** Setting the required devices aside takes at most [len(required)]
    entries out of [available]. *)
Lemma length_remove_one x (l : list string) :
  (length l ≤ S (length (RM.remove_one x l)))%nat.
Proof.
  induction l as [|y l IH]; simpl; [lia|].
  destruct (bool_decide (y = x)); simpl; lia.
Qed.

Lemma length_remaining (available required : list string) :
  (length available
   ≤ length (RM.remaining available required) + length required)%nat.
Proof.
  unfold RM.remaining. revert available.
  induction required as [|x required IH]; intros available; simpl; [lia|].
  pose proof (IH (RM.remove_one x available)).
  pose proof (length_remove_one x available). lia.
Qed.

(** What a valid request is answered with. *)
Lemma GetPreferredAllocation_valid r available required size :
  RM.valid_request (RM.Devices r) available required size = true →
  RM.GetPreferredAllocation affinity r available required size =
  ((required
      ++ take (Z.to_nat (size - Z.of_nat (length required)))
              (RM.rank affinity (RM.Devices r) required
                       (RM.remaining available required)))%list,
   None).
Proof.
  intros Hvalid.
  unfold RM.GetPreferredAllocation, RM.getPreferredAllocation.
  by rewrite Hvalid.
Qed.

(** C1: a valid allocation request, one that passes the contract check
    ([required] a subset of [available], [size] within
    [len(required), len(available)]), is answered with a list of exactly
    [size] devices. *)
Theorem allocation_has_requested_size r available required size :
  RM.valid_request (RM.Devices r) available required size = true →
  ∃ l, RM.GetPreferredAllocation affinity r available required size
       = (l, None)
       ∧ Z.of_nat (length l) = size.
Proof.
  intros Hvalid. rewrite GetPreferredAllocation_valid by done.
  apply valid_request_spec in Hvalid as (_ & Hsize & _).
  eexists. split; [reflexivity|].
  rewrite length_app, length_take, length_rank.
  pose proof (length_remaining available required). lia.
Qed.

(** C2: a valid allocation request is answered with a list that holds
    every required device. *)
Theorem allocation_includes_required r available required size :
  RM.valid_request (RM.Devices r) available required size = true →
  ∃ l, RM.GetPreferredAllocation affinity r available required size
       = (l, None)
       ∧ required ⊆ l.
Proof.
  intros Hvalid. rewrite GetPreferredAllocation_valid by done.
  eexists. split; [reflexivity|].
  intros x Hx. apply elem_of_app. by left.
Qed.

(** C3: a request with [size < len(required)], or with
    [size > len(available)], or whose [required] is not a subset of
    [available], is answered with [InvalidRequest] and no list. *)
Theorem invalid_request_rejected r available required size :
  (size < Z.of_nat (length required))%Z
  ∨ (size > Z.of_nat (length available))%Z
  ∨ ¬ required ⊆ available →
  RM.GetPreferredAllocation affinity r available required size
  = ([], Some InvalidRequest).
Proof.
  intros Hbad.
  unfold RM.GetPreferredAllocation, RM.getPreferredAllocation.
  destruct (RM.valid_request (RM.Devices r) available required size)
    eqn:Hvalid; [|done].
  apply valid_request_spec in Hvalid as (Hsub & Hsize & _).
  destruct Hbad as [?|[?|?]]; [lia|lia|done].
Qed.

(** C8: a valid request of size [len(required)] is answered with
    [required] itself, in the same order. *)
Theorem allocation_of_required_size r available required :
  RM.valid_request (RM.Devices r) available required
                   (Z.of_nat (length required)) = true →
  RM.GetPreferredAllocation affinity r available required
                            (Z.of_nat (length required))
  = (required, None).
Proof.
  intros Hvalid. rewrite GetPreferredAllocation_valid by done.
  by rewrite Z.sub_diag, take_0, app_nil_r.
Qed.

End AllocationProperties.


(** ** The theorems at concrete inputs *)

Ltac by_computation := apply (bool_decide_unpack _); vm_compute; reflexivity.

(** On a node without driver, a strict configuration gets the error. *)
Lemma init_failure_follows_fail_fast_flag_witness :
  nvml_Init cpu_node ≠ SUCCESS
  ∧ FailOnInitError (Flags (conf (start (flags_of MigStrategyNone true))))
    = Some true
  ∧ ∃ rms e s',
      NewResourceManagers cpu_node (start (flags_of MigStrategyNone true))
      = (Returned (rms, e), s')
      ∧ (is_Some e ↔ true = true)
      ∧ (true = false → rms = [] ∧ e = None).
Proof.
  split; [by_computation|]. split; [reflexivity|].
  apply (init_failure_follows_fail_fast_flag cpu_node
           (start (flags_of MigStrategyNone true)) true);
    [by_computation | reflexivity].
Defined.

(** Two resource names, one of them without devices: one manager. *)
Lemma managers_have_devices_witness :
  let c := flags_of MigStrategyNone false in
  let rms := [{| config := c; resource := "gpu";
                 devices := [gpu "A" 0; gpu "B" 1] |}] in
  let s' := {| conf := c;
               trace := [EvInit 0; EvBuildDeviceMap; EvShutdown 0] |} in
  NewResourceManagers gpu_node (start c) = (Returned (rms, None), s')
  ∧ Forall (fun r => RM.Devices r ≠ []) rms
  ∧ ∀ deviceMap name,
      buildDeviceMap_result gpu_node (conf (start c)) = inr deviceMap →
      deviceMap !! name = Some [] →
      name ∉ (RM.Resource <$> rms).
Proof.
  intros c rms s'.
  assert (NewResourceManagers gpu_node (start c) = (Returned (rms, None), s'))
    as Hrun by (vm_compute; reflexivity).
  split; [exact Hrun|].
  exact (managers_have_devices gpu_node (start c) rms s' Hrun).
Defined.

(** The device map fails to build: the error is returned after the
    shutdown. *)
Lemma shutdown_on_every_path_witness :
  nvml_Init broken_node = SUCCESS
  ∧ ∃ out s',
      NewResourceManagers broken_node (start (flags_of MigStrategyNone true))
      = (Returned out, s')
      ∧ trace s' = [EvInit 0; EvBuildDeviceMap; EvShutdown 0]
      ∧ ∀ e, buildDeviceMap_result broken_node
               (conf (start (flags_of MigStrategyNone true))) = inl e →
             out = ([], Some (Errorf ("error building device map: " ++ e))).
Proof.
  split; [reflexivity|].
  exact (shutdown_on_every_path broken_node
           (start (flags_of MigStrategyNone true)) eq_refl).
Defined.

(** The [single] strategy: both rules name the resource ["gpu"]. *)
Lemma default_rules_added_witness :
  let s := start (flags_of MigStrategySingle false) in
  MigStrategy (Flags (conf s)) = Some MigStrategySingle
  ∧ GPUs (Resources (conf (AddDefaultResourcesToConfig gpu_node s).2))
    = [gpu_rule]
  ∧ (AddDefaultResourcesToConfig gpu_node s).1 = Returned None
  ∧ MIGs (Resources (conf (AddDefaultResourcesToConfig gpu_node s).2))
    = [gpu_rule].
Proof.
  intros s. split; [reflexivity|].
  destruct (default_rules_added gpu_node s) as [Hgpu Hmig].
  split; [exact Hgpu|]. exact (Hmig eq_refl).
Defined.

(** The [mixed] strategy with the fail-fast flag set on a node without
    NVML. *)
Lemma mixed_strategy_and_nvml_witness :
  let s := start (flags_of MigStrategyMixed true) in
  MigStrategy (Flags (conf s)) = Some MigStrategyMixed
  ∧ AddDefaultResourcesToConfig cpu_node s =
    (Returned None,
     {| conf := {| Flags := Flags (conf s);
                   Resources := {| GPUs := [gpu_rule]; MIGs := [] |} |};
        trace := [EvHasNVML;
                  EvPrintf ("WARNING: mig-strategy=" ++ quoted "mixed"
                              ++ " is only supported with NVML");
                  EvPrintf "NVML not detected: library not found"] |}).
Proof.
  intros s. split; [reflexivity|].
  exact (mixed_strategy_and_nvml cpu_node s eq_refl).
Defined.

(** The spec's example: required C, size 2, over A, B, C, D. *)
Lemma allocation_has_requested_size_witness :
  RM.valid_request (RM.Devices pool_abcd) ["A"; "B"; "C"; "D"] ["C"] 2 = true
  ∧ ∃ l, RM.GetPreferredAllocation no_affinity pool_abcd
           ["A"; "B"; "C"; "D"] ["C"] 2 = (l, None)
         ∧ Z.of_nat (length l) = 2.
Proof.
  assert (RM.valid_request (RM.Devices pool_abcd)
            ["A"; "B"; "C"; "D"] ["C"] 2 = true) as H
    by (vm_compute; reflexivity).
  split; [exact H|].
  exact (allocation_has_requested_size no_affinity pool_abcd
           ["A"; "B"; "C"; "D"] ["C"] 2 H).
Defined.

Lemma allocation_includes_required_witness :
  RM.valid_request (RM.Devices pool_abcd)
    ["A"; "B"; "C"; "D"] ["C"; "B"] 3 = true
  ∧ ∃ l, RM.GetPreferredAllocation no_affinity pool_abcd
           ["A"; "B"; "C"; "D"] ["C"; "B"] 3 = (l, None)
         ∧ ["C"; "B"] ⊆ l.
Proof.
  assert (RM.valid_request (RM.Devices pool_abcd)
            ["A"; "B"; "C"; "D"] ["C"; "B"] 3 = true) as H
    by (vm_compute; reflexivity).
  split; [exact H|].
  exact (allocation_includes_required no_affinity pool_abcd
           ["A"; "B"; "C"; "D"] ["C"; "B"] 3 H).
Defined.

(** More devices asked for than there are available. *)
Lemma invalid_request_rejected_witness :
  ((5 < Z.of_nat (length ["C"]))%Z
   ∨ (5 > Z.of_nat (length ["A"; "B"; "C"; "D"]))%Z
   ∨ ¬ ["C"] ⊆ ["A"; "B"; "C"; "D"])
  ∧ RM.GetPreferredAllocation no_affinity pool_abcd
      ["A"; "B"; "C"; "D"] ["C"] 5 = ([], Some InvalidRequest).
Proof.
  assert ((5 < Z.of_nat (length ["C"]))%Z
          ∨ (5 > Z.of_nat (length ["A"; "B"; "C"; "D"]))%Z
          ∨ ¬ ["C"] ⊆ ["A"; "B"; "C"; "D"]) as H
    by (right; left; simpl; lia).
  split; [exact H|].
  exact (invalid_request_rejected no_affinity pool_abcd
           ["A"; "B"; "C"; "D"] ["C"] 5 H).
Defined.

Lemma allocation_of_required_size_witness :
  RM.valid_request (RM.Devices pool_abcd) ["A"; "B"; "C"; "D"] ["C"; "A"]
                   (Z.of_nat (length ["C"; "A"])) = true
  ∧ RM.GetPreferredAllocation no_affinity pool_abcd
      ["A"; "B"; "C"; "D"] ["C"; "A"] (Z.of_nat (length ["C"; "A"]))
    = (["C"; "A"], None).
Proof.
  assert (RM.valid_request (RM.Devices pool_abcd)
            ["A"; "B"; "C"; "D"] ["C"; "A"]
            (Z.of_nat (length ["C"; "A"])) = true) as H
    by (vm_compute; reflexivity).
  split; [exact H|].
  exact (allocation_of_required_size no_affinity pool_abcd
           ["A"; "B"; "C"; "D"] ["C"; "A"] H).
Defined.

(** The example of the spec: pool A, B, C, D by ascending index, all four
    available, C required, size 2: C, then A by the index tie-break. *)
Example spec_example_C_then_A :
  RM.GetPreferredAllocation no_affinity pool_abcd
    ["A"; "B"; "C"; "D"] ["C"] 2 = (["C"; "A"], None).
Proof. vm_compute. reflexivity. Qed.


(** * Further properties of the code *)

(** ** Counting calls in a trace *)

Lemma calls_app kind evs1 evs2 :
  calls kind (evs1 ++ evs2) = (calls kind evs1 + calls kind evs2)%nat.
Proof. unfold calls. by rewrite List.filter_app, length_app. Qed.

Lemma calls_cons kind e evs :
  calls kind (e :: evs)
  = ((if kind e then 1 else 0) + calls kind evs)%nat.
Proof. unfold calls. simpl. by destruct (kind e). Qed.

Lemma calls_printf kind (msgs : list string) :
  (∀ m, kind (EvPrintf m) = false) →
  calls kind (EvPrintf <$> msgs) = 0%nat.
Proof.
  intros Hkind. unfold calls.
  induction msgs as [|m msgs IH]; simpl; [done|]. by rewrite Hkind.
Qed.

(** ** [NewResourceManagers] *)

(** The state a run ends in where [nvml.Init] fails. *)
Lemma NewResourceManagers_init_failed_state hw s :
  nvml_Init hw ≠ SUCCESS →
  (NewResourceManagers hw s).2 =
  {| conf := conf s;
     trace := (trace s ++ [EvInit (nvml_Init hw); EvSetOutput Stderr]
                 ++ (EvPrintf <$> init_failure_hints hw)
                 ++ [EvSetOutput Stdout])%list |}.
Proof.
  intros Hinit. go_run. rewrite bool_decide_true by done. simpl.
  destruct (FailOnInitError (Flags (conf s))) as [[]|]; simpl;
    by rewrite <- !app_assoc.
Qed.

(** X1: where [nvml.Init] fails, the function switches the log output to
    standard error, prints its five hints, the first one with the NVML
    error string, and switches the log output back to standard output; it
    calls neither [buildDeviceMap] nor [nvml.Shutdown] and leaves the
    configuration as it was, also when the nil flag makes it panic. *)
Theorem init_failure_only_logs hw s :
  nvml_Init hw ≠ SUCCESS →
  conf (NewResourceManagers hw s).2 = conf s
  ∧ trace (NewResourceManagers hw s).2
    = (trace s ++ [EvInit (nvml_Init hw); EvSetOutput Stderr]
         ++ (EvPrintf <$> init_failure_hints hw)
         ++ [EvSetOutput Stdout])%list.
Proof.
  intros Hinit.
  by rewrite (NewResourceManagers_init_failed_state hw s Hinit).
Qed.

(** X2: on a node where NVML is initialized and the device map is built, the
    managers returned are those of the entries of the device map with at
    least one device: each carries the configuration, a resource name of
    the map and the devices bound to it, and no resource name has two
    managers. *)
Theorem managers_are_the_nonempty_pools hw s deviceMap :
  nvml_Init hw = SUCCESS →
  buildDeviceMap_result hw (conf s) = inr deviceMap →
  ∃ rms,
    (NewResourceManagers hw s).1 = Returned (rms, None)
    ∧ NoDup (RM.Resource <$> rms)
    ∧ ∀ r, r ∈ rms ↔
           config r = conf s
           ∧ RM.Devices r ≠ []
           ∧ deviceMap !! RM.Resource r = Some (RM.Devices r).
Proof.
  intros Hinit Hbuilt. rewrite (NewResourceManagers_init_ok hw s Hinit).
  rewrite Hbuilt. simpl. eexists. split; [reflexivity|]. split.
  - rewrite range_step_app. simpl. rewrite <- list_fmap_compose.
    apply (sublist_NoDup _ ((map_to_list deviceMap).*1));
      [apply NoDup_fst_map_to_list|].
    apply fmap_sublist, sublist_filter.
  - intros r. apply range_loop_elem_of.
Qed.

(** X3: what [nvml.Shutdown] answers is logged and nothing more: the managers,
    the error and the configuration are the same for every answer. *)
Theorem shutdown_result_unused hw s ret :
  (NewResourceManagers (with_shutdown hw ret) s).1
  = (NewResourceManagers hw s).1
  ∧ conf (NewResourceManagers (with_shutdown hw ret) s).2
    = conf (NewResourceManagers hw s).2.
Proof.
  go_run. destruct (bool_decide (nvml_Init hw ≠ SUCCESS)); simpl.
  - by destruct (FailOnInitError (Flags (conf s))) as [[]|].
  - destruct (buildDeviceMap_result hw (conf s)); simpl;
      destruct (bool_decide (ret ≠ SUCCESS));
      by destruct (bool_decide (nvml_Shutdown hw ≠ SUCCESS)).
Qed.

(** X4: where [nvml.Init] fails and the [FailOnInitError] pointer is nil,
    the function panics on reading the flag: no managers and no error
    are returned, and the hints have been logged by then. *)
Theorem nil_fail_fast_flag_panics hw s :
  nvml_Init hw ≠ SUCCESS →
  FailOnInitError (Flags (conf s)) = None →
  NewResourceManagers hw s =
  (Panicked,
   {| conf := conf s;
      trace := (trace s ++ [EvInit (nvml_Init hw); EvSetOutput Stderr]
                  ++ (EvPrintf <$> init_failure_hints hw)
                  ++ [EvSetOutput Stdout])%list |}).
Proof.
  intros Hinit Hflag.
  pose proof (NewResourceManagers_init_failed hw s Hinit) as Hout.
  pose proof (NewResourceManagers_init_failed_state hw s Hinit) as Hstate.
  rewrite Hflag in Hout.
  destruct (NewResourceManagers hw s) as [out s']. simpl in *.
  by subst.
Qed.

(** X5: on every path the configuration is left as it was, [nvml.Init] is
    called once and first, and [nvml.Shutdown] is called as often as
    [nvml.Init] succeeded. *)
Theorem NewResourceManagers_nvml_balanced hw s :
  conf (NewResourceManagers hw s).2 = conf s
  ∧ ∃ evs,
      trace (NewResourceManagers hw s).2
      = (trace s ++ EvInit (nvml_Init hw) :: evs)%list
      ∧ calls is_init evs = 0%nat
      ∧ calls is_shutdown evs = calls is_init_ok [EvInit (nvml_Init hw)].
Proof.
  destruct (decide (nvml_Init hw = SUCCESS)) as [Hok|Hfail].
  - rewrite (NewResourceManagers_init_ok hw s Hok). simpl.
    split; [done|]. rewrite Hok. eexists. split; [reflexivity|].
    unfold shutdown_events, calls.
    by destruct (bool_decide (nvml_Shutdown hw ≠ SUCCESS)).
  - rewrite (NewResourceManagers_init_failed_state hw s Hfail).
    cbn [snd conf trace app]. split; [done|]. eexists. split; [reflexivity|].
    rewrite calls_cons, calls_app, calls_printf by done.
    unfold calls. simpl. by rewrite bool_decide_false by done.
Qed.

(** ** [AddDefaultResourcesToConfig] *)

(** The paths of the function, one goal each. *)
Ltac add_default_paths hw s :=
  go_run;
  let strategy := fresh "strategy" in
  let reason := fresh "reason" in
  destruct (MigStrategy (Flags (conf s))) as [strategy|] eqn:Hstrategy;
    simpl;
    [ destruct (bool_decide (strategy = MigStrategySingle)) eqn:Hsingle;
        simpl;
      [ | destruct (bool_decide (strategy = MigStrategyMixed)) eqn:Hmixed;
            simpl;
          [ destruct (nvinfo_HasNVML hw) as [[] reason] eqn:Hnvml; simpl;
            [ destruct (bool_decide (nvml_Init hw ≠ SUCCESS)) eqn:Hinit;
                simpl;
              [ destruct (FailOnInitError (Flags (conf s))) as [[]|]
                  eqn:Hflag; simpl
              | rewrite walk_AddMIGResource; simpl ]
            | ]
          | ] ]
    | ].

(** X6: under every strategy but [mixed] the function talks neither to NVML
    nor to the log and returns nil: it adds the whole-GPU rule and, under
    [single] only, the rule for the MIG partitions. *)
Theorem other_strategies_only_add_rules hw s strategy :
  MigStrategy (Flags (conf s)) = Some strategy →
  strategy ≠ MigStrategyMixed →
  AddDefaultResourcesToConfig hw s =
  (Returned None,
   {| conf := with_rules (conf s) [gpu_rule]
                (if bool_decide (strategy = MigStrategySingle)
                 then [gpu_rule] else []);
      trace := trace s |}).
Proof.
  intros Hst Hnot. go_run. rewrite Hst. simpl. unfold with_rules.
  destruct (bool_decide (strategy = MigStrategySingle)); simpl; [done|].
  rewrite bool_decide_false by done. simpl. by rewrite app_nil_r.
Qed.

(** X8: on every path, a panic included, the flags are left as they were and
    the rules the configuration had stay where they were: rules are only
    appended. *)
Theorem rules_only_appended hw s :
  let c' := conf (AddDefaultResourcesToConfig hw s).2 in
  Flags c' = Flags (conf s)
  ∧ GPUs (Resources (conf s)) `prefix_of` GPUs (Resources c')
  ∧ MIGs (Resources (conf s)) `prefix_of` MIGs (Resources c').
Proof.
  add_default_paths hw s;
    try destruct (bool_decide (nvml_Shutdown hw ≠ SUCCESS)); simpl;
    (split; [done|]); split;
    first [ by eexists | by (exists []; rewrite app_nil_r) ].
Qed.

(** X9: on every path [nvml.Init] is called at most once, and
    [nvml.Shutdown] as often as [nvml.Init] succeeded. *)
Theorem AddDefaultResourcesToConfig_nvml_balanced hw s :
  ∃ evs,
    trace (AddDefaultResourcesToConfig hw s).2 = (trace s ++ evs)%list
    ∧ (calls is_init evs ≤ 1)%nat
    ∧ calls is_shutdown evs = calls is_init_ok evs.
Proof.
  add_default_paths hw s.
  all: try (exists []; rewrite app_nil_r; split; [reflexivity|];
            unfold calls; simpl; split; [lia|reflexivity]).
  1-3: apply bool_decide_eq_true in Hinit.
  1-3: rewrite <- !app_assoc; eexists; split; [reflexivity|];
       unfold calls; simpl; rewrite bool_decide_false by done;
       simpl; split; [lia|done].
  - apply bool_decide_eq_false, dec_stable in Hinit.
    destruct (bool_decide (nvml_Shutdown hw ≠ SUCCESS)); simpl;
      rewrite <- !app_assoc; (eexists; split; [reflexivity|]);
      unfold calls; simpl; rewrite bool_decide_true by done;
      simpl; split; (lia || done).
  - rewrite <- !app_assoc. eexists. split; [reflexivity|].
    unfold calls. simpl. split; [lia|done].
Qed.

(** X10: what [nvml.Shutdown] answers is logged and nothing more: the error
    returned and the configuration are the same for every answer. *)
Theorem default_rules_shutdown_result_unused hw s ret :
  (AddDefaultResourcesToConfig (with_shutdown hw ret) s).1
  = (AddDefaultResourcesToConfig hw s).1
  ∧ conf (AddDefaultResourcesToConfig (with_shutdown hw ret) s).2
    = conf (AddDefaultResourcesToConfig hw s).2.
Proof.
  add_default_paths hw s; try done.
  destruct (bool_decide (ret ≠ SUCCESS));
    by destruct (bool_decide (nvml_Shutdown hw ≠ SUCCESS)).
Qed.

(** X11: the function panics where the [MigStrategy] pointer is nil, and
    where the strategy is [mixed], NVML is detected, its initialization
    fails and the [FailOnInitError] pointer is nil. In both cases the
    whole-GPU rule has been added by then and no other rule, and
    [nvml.Shutdown] has not been called. *)
Theorem nil_flag_pointers_panic hw s :
  MigStrategy (Flags (conf s)) = None
  ∨ (MigStrategy (Flags (conf s)) = Some MigStrategyMixed
     ∧ (nvinfo_HasNVML hw).1 = true
     ∧ nvml_Init hw ≠ SUCCESS
     ∧ FailOnInitError (Flags (conf s)) = None) →
  (AddDefaultResourcesToConfig hw s).1 = Panicked
  ∧ conf (AddDefaultResourcesToConfig hw s).2
    = with_rules (conf s) [gpu_rule] []
  ∧ ∃ evs,
      trace (AddDefaultResourcesToConfig hw s).2 = (trace s ++ evs)%list
      ∧ calls is_shutdown evs = 0%nat.
Proof.
  unfold with_rules.
  intros [Hnil|(Hmixed & Hnvml & Hinit & Hflag)]; go_run.
  - rewrite Hnil. simpl. rewrite app_nil_r. repeat (split; [done|]).
    exists []. by rewrite app_nil_r.
  - rewrite Hmixed. simpl.
    destruct (nvinfo_HasNVML hw) as [has reason]. simpl in Hnvml.
    subst has. simpl. rewrite bool_decide_true by done. simpl.
    rewrite Hflag. simpl. rewrite app_nil_r. repeat (split; [done|]).
    rewrite <- !app_assoc. eexists. split; [reflexivity|]. done.
Qed.

(** ** The further properties at concrete inputs *)

(** A node without driver and a configuration with nil flags: the hints
    are logged before the panic. *)
Lemma init_failure_only_logs_witness :
  nvml_Init cpu_node ≠ SUCCESS
  ∧ conf (NewResourceManagers cpu_node (start nil_flags)).2
    = conf (start nil_flags)
  ∧ trace (NewResourceManagers cpu_node (start nil_flags)).2
    = (trace (start nil_flags)
         ++ [EvInit (nvml_Init cpu_node); EvSetOutput Stderr]
         ++ (EvPrintf <$> init_failure_hints cpu_node)
         ++ [EvSetOutput Stdout])%list.
Proof.
  assert (nvml_Init cpu_node ≠ SUCCESS) as H by by_computation.
  split; [exact H|].
  exact (init_failure_only_logs cpu_node (start nil_flags) H).
Defined.

Lemma managers_are_the_nonempty_pools_witness :
  let s := start (flags_of MigStrategyNone false) in
  nvml_Init gpu_node = SUCCESS
  ∧ buildDeviceMap_result gpu_node (conf s) = inr two_pools
  ∧ ∃ rms,
      (NewResourceManagers gpu_node s).1 = Returned (rms, None)
      ∧ NoDup (RM.Resource <$> rms)
      ∧ ∀ r, r ∈ rms ↔
             config r = conf s
             ∧ RM.Devices r ≠ []
             ∧ two_pools !! RM.Resource r = Some (RM.Devices r).
Proof.
  intros s. split; [reflexivity|]. split; [reflexivity|].
  exact (managers_are_the_nonempty_pools gpu_node s two_pools
           eq_refl eq_refl).
Defined.

(** A nil fail-fast pointer on a node without driver. *)
Lemma nil_fail_fast_flag_panics_witness :
  nvml_Init cpu_node ≠ SUCCESS
  ∧ FailOnInitError (Flags (conf (start nil_flags))) = None
  ∧ (NewResourceManagers cpu_node (start nil_flags)).1 = Panicked.
Proof.
  assert (nvml_Init cpu_node ≠ SUCCESS) as H by by_computation.
  split; [exact H|]. split; [reflexivity|].
  exact (f_equal fst
           (nil_fail_fast_flag_panics cpu_node (start nil_flags) H eq_refl)).
Defined.

(** The strategy [none] on a GPU node. *)
Lemma other_strategies_only_add_rules_witness :
  let s := start (flags_of MigStrategyNone true) in
  MigStrategy (Flags (conf s)) = Some MigStrategyNone
  ∧ MigStrategyNone ≠ MigStrategyMixed
  ∧ AddDefaultResourcesToConfig gpu_node s =
    (Returned None,
     {| conf := with_rules (conf s) [gpu_rule] []; trace := trace s |}).
Proof.
  intros s.
  assert (MigStrategyNone ≠ MigStrategyMixed) as H by by_computation.
  split; [reflexivity|]. split; [exact H|].
  exact (other_strategies_only_add_rules gpu_node s MigStrategyNone
           eq_refl H).
Defined.

(** The strategy [mixed] with a nil fail-fast pointer on a node that has
    the library and no driver. *)
Lemma nil_flag_pointers_panic_witness :
  let s := start (strategy_only MigStrategyMixed) in
  (MigStrategy (Flags (conf s)) = None
   ∨ (MigStrategy (Flags (conf s)) = Some MigStrategyMixed
      ∧ (nvinfo_HasNVML driverless_node).1 = true
      ∧ nvml_Init driverless_node ≠ SUCCESS
      ∧ FailOnInitError (Flags (conf s)) = None))
  ∧ (AddDefaultResourcesToConfig driverless_node s).1 = Panicked
  ∧ conf (AddDefaultResourcesToConfig driverless_node s).2
    = with_rules (conf s) [gpu_rule] []
  ∧ ∃ evs,
      trace (AddDefaultResourcesToConfig driverless_node s).2
      = (trace s ++ evs)%list
      ∧ calls is_shutdown evs = 0%nat.
Proof.
  intros s.
  assert (MigStrategy (Flags (conf s)) = None
          ∨ (MigStrategy (Flags (conf s)) = Some MigStrategyMixed
             ∧ (nvinfo_HasNVML driverless_node).1 = true
             ∧ nvml_Init driverless_node ≠ SUCCESS
             ∧ FailOnInitError (Flags (conf s)) = None)) as H
    by (right; repeat (split; [reflexivity|]);
        split; [by_computation|reflexivity]).
  split; [exact H|].
  exact (nil_flag_pointers_panic driverless_node s H).
Defined.
